(** * htoz_tablegen: the half-width to full-width SHIFT_JIS table generator

    A shallow embedding of [htoz_tablegen.py] (Python 2).

    - a [unicode] object is a list of code points ([Z]);
    - a [str] object is a [string]: an [ascii] is one 8-bit byte;
    - a statement that can raise returns a [result];
    - the module-level list [MAPPING] is threaded through [gen_mapping]
      as explicit state, and is returned also when the call raises,
      because the entries appended before the exception stay in it;
    - standard output is the list of the lines printed, one per [print]
      statement, each of which the interpreter ends with a newline. *)

From Stdlib Require Import ZArith List String Ascii Bool Lia.
From Stdlib Require Import HexadecimalString.
Import ListNotations.

Local Open Scope string_scope.
Local Open Scope Z_scope.

(** ** The Python primitives the script uses *)

Module Py.

Inductive exn : Type :=
| IndexError
| TypeError
| UnicodeEncodeError.

Inductive result (A : Type) : Type :=
| Ok (a : A)
| Raise (e : exn).

Arguments Ok {A} a.
Arguments Raise {A} e.

Definition bind {A B : Type} (m : result A) (k : A -> result B) : result B :=
  match m with
  | Ok a => k a
  | Raise e => Raise e
  end.

(** A C [unsigned char]: the value modulo 256. *)
Definition uchar (z : Z) : Z := z mod 256.

Definition byte_of (z : Z) : ascii := ascii_of_N (Z.to_N (uchar z)).

(** [ord(s)] for a [str]: defined on strings of length one only. *)
Definition ord (s : string) : result Z :=
  match s with
  | String a EmptyString => Ok (Z.of_N (N_of_ascii a))
  | _ => Raise TypeError
  end.

(** [s[k]] for a [str] and a non-negative index: a string of length one. *)
Definition getitem (s : string) (k : nat) : result string :=
  match String.get k s with
  | Some a => Ok (String a EmptyString)
  | None => Raise IndexError
  end.

(** [u[k]] for a [unicode] object and a non-negative index. *)
Definition getitem_u (u : list Z) (k : nat) : result Z :=
  match nth_error u k with
  | Some c => Ok c
  | None => Raise IndexError
  end.

(** The digit table ["0123456789abcdef"], indexed by the low four bits. *)
Definition hexdigit (d : Z) : ascii :=
  match String.get (Z.to_nat (Z.land d 15)) "0123456789abcdef" with
  | Some a => a
  | None => "0"%char
  end.

Fixpoint zeros (n : nat) : string :=
  match n with
  | O => EmptyString
  | S n' => String "0" (zeros n')
  end.

(** The conversion [%x]: the magnitude in lowercase hexadecimal. *)
Definition hex (n : Z) : string :=
  NilZero.string_of_uint (N.to_hex_uint (Z.to_N (Z.abs n))).

(** The conversion [%02x]: sign, then zeros up to a width of two, then
    the digits; never truncated. *)
Definition fmt_02x (n : Z) : string :=
  let sign := if n <? 0 then "-" else "" in
  let digits := hex n in
  sign ++ zeros (2 - String.length sign - String.length digits) ++ digits.

End Py.

Import Py.

Notation "x <- m ;; k" := (bind m (fun x => k))
  (at level 61, m at next level, right associativity).

(** ** The library codec named by ['shift-jis']

    The codec is part of the Python library, not of this repository.  Its
    encoder is written out here as the library has it; the Unicode to
    JIS X 0208 table it consults is a parameter [jisxcommon]. *)

Module ShiftJIS.

Section Codec.

Variable jisxcommon : Z -> option Z.

Definition NOCHAR : Z := 0xFFFF.

(** The single-byte part: ASCII, the two JIS X 0201 Roman exceptions and
    the half-width katakana; [None] for a code point above the BMP. *)
Definition single_code (c : Z) : option Z :=
  if c <? 0x80 then Some c
  else if c =? 0x00a5 then Some 0x5c
  else if c =? 0x203e then Some 0x7e
  else if (0xff61 <=? c) && (c <=? 0xff9f) then Some (c - 0xfec0)
  else if 0xFFFF <? c then None
  else Some NOCHAR.

(** The double-byte part: the table, then the full-width reverse solidus;
    a code with its top bit set belongs to JIS X 0212 and is refused. *)
Definition double_code (c : Z) : option Z :=
  match jisxcommon c with
  | Some code => if Z.testbit code 15 then None else Some code
  | None => if c =? 0xff3c then Some 0x2140 else None
  end.

(** JIS X 0208 row and cell to the two SHIFT_JIS bytes. *)
Definition jis_to_sjis (code : Z) : string :=
  let c1 := uchar (Z.shiftr code 8) in
  let c2 := uchar (Z.land code 0xff) in
  let c2 := uchar ((if Z.testbit (c1 - 0x21) 0 then 0x5e else 0) + (c2 - 0x21)) in
  let c1 := uchar (Z.shiftr (c1 - 0x21) 1) in
  String (byte_of (if c1 <? 0x1f then c1 + 0x81 else c1 + 0xc1))
    (String (byte_of (if c2 <? 0x3f then c2 + 0x40 else c2 + 0x41))
       EmptyString).

(** One code point; [None] when SHIFT_JIS has no form for it. *)
Definition encode_char (c : Z) : option string :=
  match single_code c with
  | None => None
  | Some code =>
      if (code <? 0x80) || ((0xa1 <=? code) && (code <=? 0xdf))
      then Some (String (byte_of code) EmptyString)
      else
        match (if code =? NOCHAR then double_code c else Some code) with
        | None => None
        | Some code => Some (jis_to_sjis code)
        end
  end.

(** The error handler ['backslashreplace']: the replacement text for an
    unencodable code point, [\xNN], [\uNNNN] or [\UNNNNNNNN]. *)
Definition backslashreplace_errors (c : Z) : list Z :=
  let digit k := Z.of_N (N_of_ascii (hexdigit (Z.shiftr c k))) in
  if 0x00010000 <=? c then
    [0x5c; 0x55; digit 28; digit 24; digit 20; digit 16;
     digit 12; digit 8; digit 4; digit 0]
  else if 0x100 <=? c then
    [0x5c; 0x75; digit 12; digit 8; digit 4; digit 0]
  else
    [0x5c; 0x78; digit 4; digit 0].

Inductive errors : Type :=
| strict
| backslashreplace.

(** [u.encode('shift-jis')]. *)
Fixpoint encode_strict (u : list Z) : result string :=
  match u with
  | [] => Ok EmptyString
  | c :: u' =>
      match encode_char c with
      | Some b => rest <- encode_strict u' ;; Ok (b ++ rest)
      | None => Raise UnicodeEncodeError
      end
  end.

(** [u.encode('shift-jis', e)]: the replacement text of an unencodable
    code point goes through the encoder again, strictly. *)
Fixpoint encode (u : list Z) (e : errors) : result string :=
  match u with
  | [] => Ok EmptyString
  | c :: u' =>
      match encode_char c with
      | Some b => rest <- encode u' e ;; Ok (b ++ rest)
      | None =>
          match e with
          | strict => Raise UnicodeEncodeError
          | backslashreplace =>
              r <- encode_strict (backslashreplace_errors c) ;;
              rest <- encode u' e ;;
              Ok (r ++ rest)
          end
      end
  end.

End Codec.

End ShiftJIS.

(** ** The builder and the printer, over any pair of source strings *)

Definition entry : Type := (Z * Z * Z)%type.

Module Builder.

Section Tables.

Variable jisxcommon : Z -> option Z.
Variables hankaku zenkaku : list Z.

(** The byte string of the [if i == 0: ... else: ...] statement. *)
Definition hk_byte_of (i : nat) (hk : Z) : result string :=
  if Nat.eqb i 0 then Ok (String "160" EmptyString)
  else ShiftJIS.encode jisxcommon [hk] ShiftJIS.strict.

(** The tuple [cur] for the pair [hk], [zk] at index [i]: the body of the
    loop after [zk] has been fetched. *)
Definition cur_of (i : nat) (hk zk : Z) : result entry :=
  zk_bytes <- ShiftJIS.encode jisxcommon [zk] ShiftJIS.backslashreplace ;;
  hk_byte <- hk_byte_of i hk ;;
  byte_index <- ord hk_byte ;;
  c0 <- getitem zk_bytes 0 ;;
  b0 <- ord c0 ;;
  c1 <- getitem zk_bytes 1 ;;
  b1 <- ord c1 ;;
  Ok (byte_index, b0, b1).

(** The body of the loop, up to the tuple [cur]. *)
Definition gen_entry (i : nat) (hk : Z) : result entry :=
  zk <- getitem_u zenkaku i ;;
  cur_of i hk zk.

(** [for i, hk in enumerate(...)] from index [i] on, over the characters
    [hks] still to come.  The list and the exception, if any. *)
Fixpoint gen_loop (i : nat) (hks : list Z) (MAPPING : list entry)
  : list entry * option exn :=
  match hks with
  | [] => (MAPPING, None)
  | hk :: hks' =>
      match gen_entry i hk with
      | Raise e => (MAPPING, Some e)
      | Ok cur => gen_loop (S i) hks' (MAPPING ++ [cur])%list
      end
  end.

Definition gen_mapping (MAPPING : list entry) : list entry * option exn :=
  gen_loop 0 hankaku MAPPING.

End Tables.

End Builder.

Definition header : string := "static htoz_table_entry htoz_table[] = {".
Definition footer : string := "};".

(** The text of one entry line. *)
Definition entry_line (e : entry) : string :=
  let '(i, b0, b1) := e in
  "    { 0x" ++ fmt_02x i ++ ", { 0x" ++ fmt_02x b0 ++ ", 0x" ++ fmt_02x b1
  ++ " } },".

(** The lines [output()] prints for a given [MAPPING]. *)
Definition output (MAPPING : list entry) : list string :=
  ([header] ++ map entry_line MAPPING ++ [footer])%list.

(** ** The fixed tables *)

Definition ZENKAKU : list Z :=
  [0x3000; 0xff01; 0xff1f; 0x2026; 0x3002; 0x300c; 0x300d; 0x3001;
   0x3092; 0x3041; 0x3043; 0x3045; 0x3047; 0x3049; 0x3083; 0x3085;
   0x3087; 0x3063; 0x30fc; 0x3042; 0x3044; 0x3046; 0x3048; 0x304a;
   0x304b; 0x304d; 0x304f; 0x3051; 0x3053; 0x3055; 0x3057; 0x3059;
   0x305b; 0x305d; 0x305f; 0x3061; 0x3064; 0x3066; 0x3068; 0x306a;
   0x306b; 0x306c; 0x306d; 0x306e; 0x306f; 0x3072; 0x3075; 0x3078;
   0x307b; 0x307e; 0x307f; 0x3080; 0x3081; 0x3082; 0x3084; 0x3086;
   0x3088; 0x3089; 0x308a; 0x308b; 0x308c; 0x308d; 0x308f; 0x3093].

Definition HANKAKU : list Z :=
  [0x00a0; 0x0021; 0x003f; 0xff65; 0xff61; 0xff62; 0xff63; 0xff64;
   0xff66; 0xff67; 0xff68; 0xff69; 0xff6a; 0xff6b; 0xff6c; 0xff6d;
   0xff6e; 0xff6f; 0xff70; 0xff71; 0xff72; 0xff73; 0xff74; 0xff75;
   0xff76; 0xff77; 0xff78; 0xff79; 0xff7a; 0xff7b; 0xff7c; 0xff7d;
   0xff7e; 0xff7f; 0xff80; 0xff81; 0xff82; 0xff83; 0xff84; 0xff85;
   0xff86; 0xff87; 0xff88; 0xff89; 0xff8a; 0xff8b; 0xff8c; 0xff8d;
   0xff8e; 0xff8f; 0xff90; 0xff91; 0xff92; 0xff93; 0xff94; 0xff95;
   0xff96; 0xff97; 0xff98; 0xff99; 0xff9a; 0xff9b; 0xff9c; 0xff9d].

(** The entries of the library's JIS X 0208 table that the fixed tables
    reach: the row-1 punctuation used in [ZENKAKU] and row 4, the
    hiragana.  The other rows of the table are left out, and so is every
    code point that the single-byte part of the encoder settles before
    the table is consulted. *)
Definition jisxcommon (c : Z) : option Z :=
  if c =? 0x3000 then Some 0x2121
  else if c =? 0x3001 then Some 0x2122
  else if c =? 0x3002 then Some 0x2123
  else if c =? 0xff1f then Some 0x2129
  else if c =? 0xff01 then Some 0x212a
  else if c =? 0x30fc then Some 0x213c
  else if c =? 0x2026 then Some 0x2144
  else if c =? 0x300c then Some 0x2156
  else if c =? 0x300d then Some 0x2157
  else if (0x3041 <=? c) && (c <=? 0x3093) then Some (c - 0x3041 + 0x2421)
  else None.

Definition gen_mapping : list entry -> list entry * option exn :=
  Builder.gen_mapping jisxcommon HANKAKU ZENKAKU.

(** The program: [MAPPING] is empty when the module is loaded; the lines
    printed, or the exception that ends the run before anything is. *)
Definition main : result (list string) :=
  match gen_mapping [] with
  | (MAPPING, None) => Ok (output MAPPING)
  | (_, Some e) => Raise e
  end.

(** The list [MAPPING] as the program's one call leaves it. *)
Definition MAPPING_built : list entry := fst (gen_mapping []).

(** ** Vocabulary of the statements *)

(** Two hexadecimal digits: the high and the low four bits. *)
Definition two_digits (n : Z) : string :=
  String (hexdigit (Z.shiftr n 4)) (String (hexdigit n) EmptyString).

Definition is_byte (n : Z) : Prop := 0 <= n <= 255.

Definition entry_in_bytes (e : entry) : Prop :=
  let '(i, b0, b1) := e in is_byte i /\ is_byte b0 /\ is_byte b1.

(** [n] calls of [gen_mapping] in a row, stopping at the first that
    raises. *)
Fixpoint gen_mapping_times (n : nat) (M : list entry)
  : list entry * option exn :=
  match n with
  | O => (M, None)
  | S n' =>
      match gen_mapping M with
      | (M', None) => gen_mapping_times n' M'
      | (M', Some e) => (M', Some e)
      end
  end.

(** The bytes of a text made of ASCII code points. *)
Fixpoint bytes_of (u : list Z) : string :=
  match u with
  | [] => EmptyString
  | c :: u' => String (byte_of c) (bytes_of u')
  end.

(** The letter after the backslash in the replacement text. *)
Definition escape_letter (c : Z) : Z :=
  if 0x00010000 <=? c then 0x55
  else if 0x100 <=? c then 0x75
  else 0x78.

Definition is_ascii (c : Z) : Prop := 0 <= c < 0x80.

Definition one_byte (r : result string) : bool :=
  match r with
  | Ok (String _ EmptyString) => true
  | _ => false
  end.

Definition two_bytes_or_more (r : result string) : bool :=
  match r with
  | Ok (String _ (String _ _)) => true
  | _ => false
  end.

(** ** Auxiliary facts *)

Section Facts.

Variable jt : Z -> option Z.

Lemma ord_range (s : string) (z : Z) : ord s = Ok z -> 0 <= z <= 255.
Proof.
  destruct s as [|a [|b s']]; simpl; try discriminate.
  intros H; injection H as <-.
  pose proof (N_ascii_bounded a). lia.
Qed.

Lemma ord_byte_of (z : Z) :
  0 <= z <= 255 -> ord (String (byte_of z) EmptyString) = Ok z.
Proof.
  intros Hz. unfold ord, byte_of, uchar.
  rewrite Z.mod_small by lia.
  rewrite N_ascii_embedding by lia.
  rewrite Z2N.id by lia. reflexivity.
Qed.

(** The encoder is the identity on ASCII, whatever the table holds. *)
Lemma encode_char_ascii (c : Z) :
  0 <= c < 0x80 ->
  ShiftJIS.encode_char jt c = Some (String (byte_of c) EmptyString).
Proof.
  intros Hc. unfold ShiftJIS.encode_char, ShiftJIS.single_code.
  destruct (c <? 0x80) eqn:E; [| apply Z.ltb_ge in E; lia ].
  rewrite E. reflexivity.
Qed.

Lemma hexdigit_ascii (d : Z) : 0 <= Z.of_N (N_of_ascii (hexdigit d)) < 0x80.
Proof.
  unfold hexdigit.
  assert (H : 0 <= Z.land d 15 < 16).
  { change 15 with (Z.ones 4). rewrite Z.land_ones by lia.
    apply Z.mod_pos_bound. lia. }
  assert (Hn : (Z.to_nat (Z.land d 15) < 16)%nat) by lia.
  revert Hn. generalize (Z.to_nat (Z.land d 15)). intros n Hn.
  do 16 (destruct n as [|n]; [ vm_compute; split; congruence |]).
  lia.
Qed.

End Facts.

Lemma fmt_02x_byte (n : Z) : 0 <= n <= 255 -> fmt_02x n = two_digits n.
Proof.
  intros Hn.
  assert (All : forallb
                  (fun k => String.eqb (fmt_02x (Z.of_nat k))
                                       (two_digits (Z.of_nat k)))
                  (seq 0 256) = true) by (vm_compute; reflexivity).
  rewrite forallb_forall in All.
  specialize (All (Z.to_nat n)).
  rewrite Z2Nat.id in All by lia.
  apply String.eqb_eq, All, in_seq. lia.
Qed.

(** ** The printed text *)

(** C1: with the fixed tables the program prints the header line, the 64
    entry lines below and the footer line, and nothing else; for every
    list of entries the printer starts with the header, ends with the
    footer and prints one line per entry in between; and an entry of
    three byte values is printed with each value as two lowercase
    hexadecimal digits. *)
Theorem C1_output_format :
  main = Ok
    ["static htoz_table_entry htoz_table[] = {";
     "    { 0xa0, { 0x81, 0x40 } },";
     "    { 0x21, { 0x81, 0x49 } },";
     "    { 0x3f, { 0x81, 0x48 } },";
     "    { 0xa5, { 0x81, 0x63 } },";
     "    { 0xa1, { 0x81, 0x42 } },";
     "    { 0xa2, { 0x81, 0x75 } },";
     "    { 0xa3, { 0x81, 0x76 } },";
     "    { 0xa4, { 0x81, 0x41 } },";
     "    { 0xa6, { 0x82, 0xf0 } },";
     "    { 0xa7, { 0x82, 0x9f } },";
     "    { 0xa8, { 0x82, 0xa1 } },";
     "    { 0xa9, { 0x82, 0xa3 } },";
     "    { 0xaa, { 0x82, 0xa5 } },";
     "    { 0xab, { 0x82, 0xa7 } },";
     "    { 0xac, { 0x82, 0xe1 } },";
     "    { 0xad, { 0x82, 0xe3 } },";
     "    { 0xae, { 0x82, 0xe5 } },";
     "    { 0xaf, { 0x82, 0xc1 } },";
     "    { 0xb0, { 0x81, 0x5b } },";
     "    { 0xb1, { 0x82, 0xa0 } },";
     "    { 0xb2, { 0x82, 0xa2 } },";
     "    { 0xb3, { 0x82, 0xa4 } },";
     "    { 0xb4, { 0x82, 0xa6 } },";
     "    { 0xb5, { 0x82, 0xa8 } },";
     "    { 0xb6, { 0x82, 0xa9 } },";
     "    { 0xb7, { 0x82, 0xab } },";
     "    { 0xb8, { 0x82, 0xad } },";
     "    { 0xb9, { 0x82, 0xaf } },";
     "    { 0xba, { 0x82, 0xb1 } },";
     "    { 0xbb, { 0x82, 0xb3 } },";
     "    { 0xbc, { 0x82, 0xb5 } },";
     "    { 0xbd, { 0x82, 0xb7 } },";
     "    { 0xbe, { 0x82, 0xb9 } },";
     "    { 0xbf, { 0x82, 0xbb } },";
     "    { 0xc0, { 0x82, 0xbd } },";
     "    { 0xc1, { 0x82, 0xbf } },";
     "    { 0xc2, { 0x82, 0xc2 } },";
     "    { 0xc3, { 0x82, 0xc4 } },";
     "    { 0xc4, { 0x82, 0xc6 } },";
     "    { 0xc5, { 0x82, 0xc8 } },";
     "    { 0xc6, { 0x82, 0xc9 } },";
     "    { 0xc7, { 0x82, 0xca } },";
     "    { 0xc8, { 0x82, 0xcb } },";
     "    { 0xc9, { 0x82, 0xcc } },";
     "    { 0xca, { 0x82, 0xcd } },";
     "    { 0xcb, { 0x82, 0xd0 } },";
     "    { 0xcc, { 0x82, 0xd3 } },";
     "    { 0xcd, { 0x82, 0xd6 } },";
     "    { 0xce, { 0x82, 0xd9 } },";
     "    { 0xcf, { 0x82, 0xdc } },";
     "    { 0xd0, { 0x82, 0xdd } },";
     "    { 0xd1, { 0x82, 0xde } },";
     "    { 0xd2, { 0x82, 0xdf } },";
     "    { 0xd3, { 0x82, 0xe0 } },";
     "    { 0xd4, { 0x82, 0xe2 } },";
     "    { 0xd5, { 0x82, 0xe4 } },";
     "    { 0xd6, { 0x82, 0xe6 } },";
     "    { 0xd7, { 0x82, 0xe7 } },";
     "    { 0xd8, { 0x82, 0xe8 } },";
     "    { 0xd9, { 0x82, 0xe9 } },";
     "    { 0xda, { 0x82, 0xea } },";
     "    { 0xdb, { 0x82, 0xeb } },";
     "    { 0xdc, { 0x82, 0xed } },";
     "    { 0xdd, { 0x82, 0xf1 } },";
     "};"]
  /\ (forall M : list entry,
        hd_error (output M) = Some header
        /\ last (output M) EmptyString = footer
        /\ List.length (output M) = S (S (List.length M)))
  /\ (forall i b0 b1 : Z,
        0 <= i <= 255 -> 0 <= b0 <= 255 -> 0 <= b1 <= 255 ->
        entry_line (i, b0, b1) =
        "    { 0x" ++ two_digits i ++ ", { 0x" ++ two_digits b0
        ++ ", 0x" ++ two_digits b1 ++ " } },").
Proof.
  split; [ vm_compute; reflexivity |].
  split.
  - intros M. repeat split.
    + change (output M) with ((header :: map entry_line M) ++ [footer])%list.
      apply last_last.
    + unfold output. rewrite !length_app, length_map. simpl. lia.
  - intros i b0 b1 Hi H0 H1. unfold entry_line.
    rewrite !fmt_02x_byte by assumption. reflexivity.
Qed.

Lemma C1_output_format_witness :
  0 <= 0xa1 <= 255 /\ 0 <= 0x81 <= 255 /\ 0 <= 0x42 <= 255
  /\ entry_line (0xa1, 0x81, 0x42) = "    { 0xa1, { 0x81, 0x42 } },".
Proof.
  split; [ lia |]. split; [ lia |]. split; [ lia |].
  apply (proj2 (proj2 C1_output_format) 0xa1 0x81 0x42); lia.
Defined.

(** ** The loop *)

Section LoopFacts.

Variable jt : Z -> option Z.
Variable z : list Z.

Ltac step_loop := cbn [Builder.gen_loop].

(** What [MAPPING] held before the loop stays in front, untouched, and
    what the loop appends does not depend on it. *)
Lemma gen_loop_app (hks : list Z) :
  forall (i : nat) (M : list entry),
    Builder.gen_loop jt z i hks M
    = ((M ++ fst (Builder.gen_loop jt z i hks []))%list,
       snd (Builder.gen_loop jt z i hks [])).
Proof.
  induction hks as [|hk hks IH]; intros i M.
  - simpl. rewrite app_nil_r. reflexivity.
  - step_loop.
    destruct (Builder.gen_entry jt z i hk) as [cur|e].
    + rewrite (IH (S i) (M ++ [cur])%list).
      rewrite (IH (S i) ([] ++ [cur])%list). simpl.
      rewrite <- app_assoc. reflexivity.
    + simpl. rewrite app_nil_r. reflexivity.
Qed.

Lemma cur_of_in_bytes (i : nat) (hk zk : Z) (e : entry) :
  Builder.cur_of jt i hk zk = Ok e -> entry_in_bytes e.
Proof.
  unfold Builder.cur_of, bind.
  destruct (ShiftJIS.encode jt [zk] ShiftJIS.backslashreplace)
    as [zk_bytes|]; [| discriminate ].
  destruct (Builder.hk_byte_of jt i hk) as [hk_byte|]; [| discriminate ].
  destruct (ord hk_byte) as [byte_index|] eqn:Ei; [| discriminate ].
  destruct (getitem zk_bytes 0) as [c0|]; [| discriminate ].
  destruct (ord c0) as [b0|] eqn:E0; [| discriminate ].
  destruct (getitem zk_bytes 1) as [c1|]; [| discriminate ].
  destruct (ord c1) as [b1|] eqn:E1; [| discriminate ].
  intros H; injection H as <-.
  unfold entry_in_bytes, is_byte.
  repeat split; eapply ord_range; eassumption.
Qed.

Lemma gen_entry_in_bytes (i : nat) (hk : Z) (e : entry) :
  Builder.gen_entry jt z i hk = Ok e -> entry_in_bytes e.
Proof.
  unfold Builder.gen_entry, bind.
  destruct (getitem_u z i); [| discriminate ].
  apply cur_of_in_bytes.
Qed.

Lemma gen_loop_in_bytes (hks : list Z) :
  forall (i : nat) (M : list entry),
    Forall entry_in_bytes M -> Forall entry_in_bytes (fst (Builder.gen_loop jt z i hks M)).
Proof.
  induction hks as [|hk hks IH]; intros i M HM; [ exact HM |].
  step_loop.
  destruct (Builder.gen_entry jt z i hk) as [cur|e] eqn:E; [| exact HM ].
  apply IH, Forall_app. split; [ exact HM |].
  constructor; [| constructor ]. eapply gen_entry_in_bytes, E.
Qed.

(** A loop that ends without an exception has appended one entry per
    character, the [k]-th of them built from the [k]-th character. *)
Lemma gen_loop_ok (hks : list Z) :
  forall (i : nat) (M : list entry),
    snd (Builder.gen_loop jt z i hks M) = None ->
    List.length (fst (Builder.gen_loop jt z i hks M))
    = (List.length M + List.length hks)%nat
    /\ forall (k : nat) (hk : Z),
         nth_error hks k = Some hk ->
         exists e, Builder.gen_entry jt z (i + k) hk = Ok e
                   /\ nth_error (fst (Builder.gen_loop jt z i hks M))
                                (List.length M + k) = Some e.
Proof.
  induction hks as [|hk0 hks IH]; intros i M.
  - intros _. split; [ simpl; lia |].
    intros k hk Hk. destruct k; discriminate.
  - step_loop.
    destruct (Builder.gen_entry jt z i hk0) as [cur|e] eqn:E; [| discriminate ].
    intros Hnone. destruct (IH _ _ Hnone) as [Hlen Hnth].
    split.
    + rewrite Hlen, length_app. simpl. lia.
    + intros [|k] hk Hk.
      * injection Hk as <-. exists cur.
        rewrite !Nat.add_0_r. split; [ exact E |].
        rewrite gen_loop_app. cbn [fst].
        rewrite <- app_assoc, nth_error_app2 by lia.
        rewrite Nat.sub_diag. reflexivity.
      * destruct (Hnth k hk Hk) as (e & He & Hn).
        exists e. rewrite <- Nat.add_succ_comm. split; [ exact He |].
        rewrite length_app in Hn. simpl in Hn.
        rewrite <- Hn. f_equal. lia.
Qed.

(** The loop cannot run past the end of the full-width string. *)
Lemma gen_loop_short (hks : list Z) :
  forall (i : nat) (M : list entry),
    (i <= List.length z)%nat ->
    (List.length z < i + List.length hks)%nat ->
    exists e, snd (Builder.gen_loop jt z i hks M) = Some e.
Proof.
  induction hks as [|hk hks IH]; intros i M Hi Hlen.
  - simpl in Hlen. lia.
  - step_loop.
    destruct (Builder.gen_entry jt z i hk) as [cur|e] eqn:E; [| exists e; reflexivity ].
    apply IH.
    + unfold Builder.gen_entry, getitem_u, bind in E.
      destruct (nth_error z i) eqn:En; [| discriminate ].
      change (i < List.length z)%nat. apply nth_error_Some.
      rewrite En. discriminate.
    + simpl in Hlen. lia.
Qed.

End LoopFacts.


(** With the fixed tables a call appends the same entries to whatever
    [MAPPING] holds, and does not raise. *)
Lemma gen_mapping_appends (M : list entry) :
  gen_mapping M = ((M ++ MAPPING_built)%list, None).
Proof.
  unfold gen_mapping, Builder.gen_mapping.
  rewrite gen_loop_app.
  change (fst (Builder.gen_loop jisxcommon ZENKAKU 0 HANKAKU []))
    with MAPPING_built.
  assert (E : snd (Builder.gen_loop jisxcommon ZENKAKU 0 HANKAKU []) = None)
    by (vm_compute; reflexivity).
  rewrite E. reflexivity.
Qed.

(** ** The entries of the fixed tables *)

(** C2: the pair of the half-width and the full-width full stop sits at
    index 4 and yields (0xa1, 0x81, 0x42); the first pair, the
    non-breaking space and the ideographic space, yields
    (0xa0, 0x81, 0x40); the last pair yields (0xdd, 0x82, 0xf1). *)
Theorem C2_known_entries :
  (nth_error HANKAKU 4 = Some 0xff61
   /\ nth_error ZENKAKU 4 = Some 0x3002
   /\ nth_error MAPPING_built 4 = Some (0xa1, 0x81, 0x42))
  /\ (nth_error HANKAKU 0 = Some 0x00a0
      /\ nth_error ZENKAKU 0 = Some 0x3000
      /\ nth_error MAPPING_built 0 = Some (0xa0, 0x81, 0x40))
  /\ (nth_error HANKAKU 63 = Some 0xff9d
      /\ nth_error ZENKAKU 63 = Some 0x3093
      /\ nth_error MAPPING_built 63 = Some (0xdd, 0x82, 0xf1)
      /\ List.length MAPPING_built = 64%nat).
Proof.
  vm_compute. repeat split.
Qed.

(** C3: the first entry's index byte is 0xa0 by the branch on position
    zero, whatever the first half-width character is, whatever the
    tables are; the encoder itself gives no byte value for U+00A0: with
    the library's table it raises, and with any table the encoding is
    never a single byte. *)
Theorem C3_first_entry_fixed_byte :
  nth_error MAPPING_built 0 = Some (0xa0, 0x81, 0x40)
  /\ (forall (jt : Z -> option Z) (hk : Z),
        bind (Builder.hk_byte_of jt 0 hk) ord = Ok 0xa0)
  /\ (forall (jt : Z -> option Z) (h z : list Z),
        match hd_error (fst (Builder.gen_mapping jt h z [])) with
        | Some (byte_index, _, _) => byte_index = 0xa0
        | None => True
        end)
  /\ ShiftJIS.encode jisxcommon [0x00a0] ShiftJIS.strict
     = Raise UnicodeEncodeError
  /\ (forall (jt : Z -> option Z) (b : Z),
        bind (ShiftJIS.encode jt [0x00a0] ShiftJIS.strict) ord <> Ok b).
Proof.
  split; [ vm_compute; reflexivity |].
  split; [ intros jt hk; vm_compute; reflexivity |].
  split.
  - intros jt h z. unfold Builder.gen_mapping.
    destruct h as [|hk h]; [ exact I |].
    cbn [Builder.gen_loop].
    destruct (Builder.gen_entry jt z 0 hk) as [cur|e] eqn:E; [| exact I ].
    rewrite gen_loop_app. cbn [fst app hd_error].
    unfold Builder.gen_entry, Builder.cur_of, bind in E.
    destruct (getitem_u z 0) as [zk|]; [| discriminate ].
    destruct (ShiftJIS.encode jt [zk] ShiftJIS.backslashreplace)
      as [zk_bytes|]; [| discriminate ].
    cbn in E.
    destruct (getitem zk_bytes 0) as [c0|]; [| discriminate ].
    destruct (ord c0); [| discriminate ].
    destruct (getitem zk_bytes 1) as [c1|]; [| discriminate ].
    destruct (ord c1); [| discriminate ].
    injection E as <-. reflexivity.
  - split; [ vm_compute; reflexivity |].
    intros jt b.
    cbn [ShiftJIS.encode]. unfold ShiftJIS.encode_char.
    change (ShiftJIS.single_code 0xa0) with (Some ShiftJIS.NOCHAR).
    cbn [Z.ltb Z.leb Z.eqb Z.compare Pos.compare Pos.compare_cont
         ShiftJIS.NOCHAR orb andb Pos.eqb].
    destruct (ShiftJIS.double_code jt 0xa0); cbn; discriminate.
Qed.

(** ** Source strings of unequal length *)


(** ** Calling the builder again *)

(** C5, as stated, fails: after a second call the printer emits more
    lines than after the first. *)
Lemma C5_second_call_changes_output :
  output (fst (gen_mapping (fst (gen_mapping []))))
  <> output (fst (gen_mapping [])).
Proof.
  intros H. apply (f_equal (@List.length string)) in H.
  vm_compute in H. discriminate.
Qed.

(** C5, amended: the entries a call appends do not depend on what
    [MAPPING] holds, and there are 64 of them, so a run that starts
    from the empty list always prints the same 66 lines; a second call
    in the same run appends the same 64 entries once more, and the
    printer then emits each of the 64 entry lines twice, between one
    header and one footer, which makes 130 lines. *)
Theorem C5_builder_deterministic :
  (forall M : list entry,
     gen_mapping M = ((M ++ fst (gen_mapping []))%list, None))
  /\ List.length (fst (gen_mapping [])) = 64%nat
  /\ main = Ok (output (fst (gen_mapping [])))
  /\ List.length (output (fst (gen_mapping []))) = 66%nat
  /\ output (fst (gen_mapping (fst (gen_mapping []))))
     = ([header]
        ++ map entry_line (fst (gen_mapping []))
        ++ map entry_line (fst (gen_mapping []))
        ++ [footer])%list
  /\ List.length (map entry_line (fst (gen_mapping []))) = 64%nat
  /\ List.length (output (fst (gen_mapping (fst (gen_mapping [])))))
     = 130%nat.
Proof.
  split; [ exact gen_mapping_appends |].
  split; [ vm_compute; reflexivity |].
  split; [ unfold main; rewrite gen_mapping_appends; reflexivity |].
  split; [ vm_compute; reflexivity |].
  split.
  - rewrite !gen_mapping_appends. cbn [fst app].
    unfold output. rewrite map_app, <- app_assoc. reflexivity.
  - split; vm_compute; reflexivity.
Qed.

(** C10: the fixed half-width string has 64 characters; a call appends
    64 entries behind what [MAPPING] holds and keeps that in place, so
    [n] calls from the empty list leave 64 * n entries; the program,
    with its one call, prints 64 entry lines between header and
    footer. *)
Theorem C10_entries_accumulate :
  List.length HANKAKU = 64%nat
  /\ (forall M : list entry,
        exists added,
          gen_mapping M = ((M ++ added)%list, None)
          /\ List.length added = 64%nat)
  /\ (forall n : nat,
        snd (gen_mapping_times n []) = None
        /\ List.length (fst (gen_mapping_times n [])) = (64 * n)%nat)
  /\ (exists entry_lines,
        main = Ok ([header] ++ entry_lines ++ [footer])%list
        /\ List.length entry_lines = 64%nat).
Proof.
  split; [ reflexivity |].
  split.
  { intros M. exists MAPPING_built.
    split; [ apply gen_mapping_appends | vm_compute; reflexivity ]. }
  split.
  - assert (G : forall n M,
               snd (gen_mapping_times n M) = None
               /\ List.length (fst (gen_mapping_times n M))
                  = (List.length M + 64 * n)%nat).
    { induction n as [|n IH]; intros M.
      - simpl. split; [ reflexivity | lia ].
      - cbn [gen_mapping_times]. rewrite gen_mapping_appends.
        destruct (IH (M ++ MAPPING_built)%list) as [Hs Hl].
        split; [ exact Hs |].
        rewrite Hl, length_app.
        change (List.length MAPPING_built) with 64%nat. lia. }
    intros n. apply (G n []).
  - exists (map entry_line MAPPING_built).
    split; [| vm_compute; reflexivity ].
    unfold main. rewrite gen_mapping_appends. reflexivity.
Qed.

(** ** Unencodable full-width characters *)

Lemma append_empty_r (s : string) : (s ++ EmptyString)%string = s.
Proof.
  induction s as [|a s IH]; simpl; [ reflexivity | now rewrite IH ].
Qed.

Lemma encode_strict_ascii (jt : Z -> option Z) (u : list Z) :
  Forall is_ascii u -> ShiftJIS.encode_strict jt u = Ok (bytes_of u).
Proof.
  induction 1 as [|c u Hc _ IH]; [ reflexivity |].
  cbn [ShiftJIS.encode_strict bytes_of].
  rewrite encode_char_ascii by exact Hc.
  rewrite IH. reflexivity.
Qed.

Lemma backslashreplace_errors_ascii (c : Z) :
  Forall is_ascii (ShiftJIS.backslashreplace_errors c).
Proof.
  unfold ShiftJIS.backslashreplace_errors.
  destruct (0x00010000 <=? c); [| destruct (0x100 <=? c) ];
    repeat constructor;
    solve [ unfold is_ascii; lia | apply hexdigit_ascii ].
Qed.

Lemma backslashreplace_errors_head (c : Z) :
  exists digits,
    ShiftJIS.backslashreplace_errors c = 0x5c :: escape_letter c :: digits
    /\ (2 <= List.length digits)%nat.
Proof.
  unfold ShiftJIS.backslashreplace_errors, escape_letter.
  destruct (0x00010000 <=? c); [| destruct (0x100 <=? c) ];
    eexists; (split; [ reflexivity | simpl; lia ]).
Qed.

(** C6: a full-width character for which SHIFT_JIS has no form is
    encoded as its backslash escape, a text that depends on the
    character alone; the builder then does not raise because of it, and
    puts the backslash and the letter of the escape in the entry. *)
Theorem C6_unencodable_zenkaku_replaced (jt : Z -> option Z) (zk : Z) :
  ShiftJIS.encode_char jt zk = None ->
  ShiftJIS.encode jt [zk] ShiftJIS.backslashreplace
  = Ok (bytes_of (ShiftJIS.backslashreplace_errors zk))
  /\ (4 <= String.length (bytes_of (ShiftJIS.backslashreplace_errors zk)))%nat
  /\ forall (i : nat) (hk byte_index : Z),
       bind (Builder.hk_byte_of jt i hk) ord = Ok byte_index ->
       Builder.cur_of jt i hk zk = Ok (byte_index, 0x5c, escape_letter zk).
Proof.
  intros Hnone.
  assert (Henc : ShiftJIS.encode jt [zk] ShiftJIS.backslashreplace
                 = Ok (bytes_of (ShiftJIS.backslashreplace_errors zk))).
  { cbn [ShiftJIS.encode]. rewrite Hnone.
    rewrite encode_strict_ascii by apply backslashreplace_errors_ascii.
    cbn [bind]. rewrite append_empty_r. reflexivity. }
  destruct (backslashreplace_errors_head zk) as (digits & Hd & Hlen).
  split; [ exact Henc |]. split.
  - rewrite Hd. destruct digits as [|d0 [|d1 digits]]; simpl in *; lia.
  - intros i hk byte_index Hhk.
    unfold Builder.cur_of. rewrite Henc. unfold bind in Hhk |- *.
    destruct (Builder.hk_byte_of jt i hk) as [hk_byte|]; [| discriminate ].
    rewrite Hhk, Hd.
    cbn [bytes_of getitem String.get].
    rewrite !ord_byte_of; [ reflexivity | |].
    + unfold escape_letter.
      destruct (0x00010000 <=? zk); [| destruct (0x100 <=? zk) ]; lia.
    + lia.
Qed.

Lemma C6_unencodable_zenkaku_replaced_witness :
  ShiftJIS.encode_char jisxcommon 0x3094 = None
  /\ ShiftJIS.encode jisxcommon [0x3094] ShiftJIS.backslashreplace
     = Ok "\u3094"
  /\ bind (Builder.hk_byte_of jisxcommon 1 0xff73) ord = Ok 0xb3
  /\ Builder.cur_of jisxcommon 1 0xff73 0x3094 = Ok (0xb3, 0x5c, 0x75).
Proof.
  pose proof (C6_unencodable_zenkaku_replaced jisxcommon 0x3094 eq_refl)
    as (Henc & _ & Hcur).
  split; [ reflexivity |].
  split; [ exact Henc |].
  split; [ reflexivity |].
  exact (Hcur 1%nat 0xff73 0xb3 eq_refl).
Defined.

(** ** Range and order of the entries *)

(** C7: every entry the builder puts in [MAPPING], for any tables and so
    for the fixed ones, has its index and its two target bytes between
    0 and 255. *)
Theorem C7_entries_are_bytes :
  (forall (jt : Z -> option Z) (h z : list Z),
     Forall entry_in_bytes (fst (Builder.gen_mapping jt h z [])))
  /\ Forall (fun e : entry =>
               let '(byteIndex, zenkakuByte0, zenkakuByte1) := e in
               0 <= byteIndex <= 255
               /\ 0 <= zenkakuByte0 <= 255
               /\ 0 <= zenkakuByte1 <= 255) MAPPING_built.
Proof.
  assert (G : forall jt h z,
             Forall entry_in_bytes (fst (Builder.gen_mapping jt h z []))).
  { intros jt h z. apply gen_loop_in_bytes. constructor. }
  split; [ exact G |].
  exact (G jisxcommon HANKAKU ZENKAKU).
Qed.

(** C8: when the builder ends without raising, [MAPPING] has one entry
    per character pair, the [i]-th entry is the tuple built from the
    [i]-th half-width and the [i]-th full-width character, and the
    [i]-th line after the header is the line of that entry. *)
Theorem C8_order_preserved (jt : Z -> option Z) (h z : list Z) :
  snd (Builder.gen_mapping jt h z []) = None ->
  List.length (fst (Builder.gen_mapping jt h z [])) = List.length h
  /\ forall (i : nat) (hk : Z),
       nth_error h i = Some hk ->
       exists zk e,
         nth_error z i = Some zk
         /\ Builder.cur_of jt i hk zk = Ok e
         /\ nth_error (fst (Builder.gen_mapping jt h z [])) i = Some e
         /\ nth_error (output (fst (Builder.gen_mapping jt h z []))) (S i)
            = Some (entry_line e).
Proof.
  intros Hnone. unfold Builder.gen_mapping in *.
  destruct (gen_loop_ok jt z h 0 [] Hnone) as [Hlen Hnth].
  split; [ exact Hlen |].
  intros i hk Hi. destruct (Hnth i hk Hi) as (e & He & Hn).
  cbn in He, Hn.
  unfold Builder.gen_entry, getitem_u, bind in He.
  destruct (nth_error z i) as [zk|]; [| discriminate ].
  exists zk, e. repeat split; try assumption.
  unfold output. cbn [app nth_error].
  rewrite nth_error_app1.
  - apply map_nth_error, Hn.
  - rewrite length_map. apply nth_error_Some. rewrite Hn. discriminate.
Qed.

Lemma C8_order_preserved_witness :
  snd (Builder.gen_mapping jisxcommon HANKAKU ZENKAKU []) = None
  /\ List.length MAPPING_built = List.length HANKAKU
  /\ exists zk e,
       nth_error ZENKAKU 4 = Some zk
       /\ Builder.cur_of jisxcommon 4 0xff61 zk = Ok e
       /\ nth_error MAPPING_built 4 = Some e
       /\ nth_error (output MAPPING_built) 5 = Some (entry_line e).
Proof.
  split; [ reflexivity |].
  pose proof (C8_order_preserved jisxcommon HANKAKU ZENKAKU eq_refl)
    as [Hlen Hnth].
  split; [ exact Hlen |].
  exact (Hnth 4%nat 0xff61 eq_refl).
Defined.

(** ** The fixed tables do not raise *)

(** C9: with the fixed tables the builder ends without an exception;
    every half-width character after the first encodes strictly to one
    byte, and every full-width character encodes to two bytes or more. *)
Theorem C9_fixed_tables_do_not_raise :
  snd (gen_mapping []) = None
  /\ (forall (i : nat) (hk : Z),
        (0 < i)%nat -> nth_error HANKAKU i = Some hk ->
        exists b,
          ShiftJIS.encode jisxcommon [hk] ShiftJIS.strict
          = Ok (String b EmptyString))
  /\ (forall (i : nat) (zk : Z),
        nth_error ZENKAKU i = Some zk ->
        exists zk_bytes,
          ShiftJIS.encode jisxcommon [zk] ShiftJIS.backslashreplace
          = Ok zk_bytes
          /\ (2 <= String.length zk_bytes)%nat).
Proof.
  split; [ vm_compute; reflexivity |].
  split.
  - intros i hk Hi Hnth.
    assert (All : forallb
                    (fun c => one_byte
                                (ShiftJIS.encode jisxcommon [c]
                                   ShiftJIS.strict))
                    (tl HANKAKU) = true) by (vm_compute; reflexivity).
    rewrite forallb_forall in All.
    destruct i as [|i]; [ lia |].
    specialize (All hk (nth_error_In (tl HANKAKU) i Hnth)).
    destruct (ShiftJIS.encode jisxcommon [hk] ShiftJIS.strict)
      as [[|b [|b' s]]|]; try discriminate.
    exists b. reflexivity.
  - intros i zk Hnth.
    assert (All : forallb
                    (fun c => two_bytes_or_more
                                (ShiftJIS.encode jisxcommon [c]
                                   ShiftJIS.backslashreplace))
                    ZENKAKU = true) by (vm_compute; reflexivity).
    rewrite forallb_forall in All.
    specialize (All zk (nth_error_In ZENKAKU i Hnth)).
    destruct (ShiftJIS.encode jisxcommon [zk] ShiftJIS.backslashreplace)
      as [[|b [|b' s]]|]; try discriminate.
    eexists. split; [ reflexivity | simpl; lia ].
Qed.

Lemma C9_fixed_tables_do_not_raise_witness :
  ((0 < 1)%nat /\ nth_error HANKAKU 1 = Some 0x21
   /\ exists b,
        ShiftJIS.encode jisxcommon [0x21] ShiftJIS.strict
        = Ok (String b EmptyString))
  /\ (nth_error ZENKAKU 63 = Some 0x3093
      /\ exists zk_bytes,
           ShiftJIS.encode jisxcommon [0x3093] ShiftJIS.backslashreplace
           = Ok zk_bytes
           /\ (2 <= String.length zk_bytes)%nat).
Proof.
  pose proof C9_fixed_tables_do_not_raise as (_ & Hhk & Hzk).
  split.
  - split; [ lia |]. split; [ reflexivity |].
    exact (Hhk 1%nat 0x21 (le_n 1) eq_refl).
  - split; [ reflexivity |].
    exact (Hzk 63%nat 0x3093 eq_refl).
Defined.

(** * Further properties

    ** One character pair *)

Section PairFacts.

Variable jt : Z -> option Z.

(** The encoder gives one byte or two, never none and never more. *)
Lemma encode_char_size (c : Z) (s : string) :
  ShiftJIS.encode_char jt c = Some s ->
  (exists b, s = String b EmptyString)
  \/ (exists b0 b1, s = String b0 (String b1 EmptyString)).
Proof.
  unfold ShiftJIS.encode_char.
  destruct (ShiftJIS.single_code c) as [code|]; [| discriminate ].
  destruct ((code <? 0x80) || ((0xa1 <=? code) && (code <=? 0xdf))).
  - intros [= <-]. left. eexists. reflexivity.
  - destruct (if code =? ShiftJIS.NOCHAR
              then ShiftJIS.double_code jt c else Some code);
      [| discriminate ].
    intros [= <-]. right. unfold ShiftJIS.jis_to_sjis.
    do 2 eexists. reflexivity.
Qed.

Lemma encode_one_backslashreplace (zk : Z) :
  ShiftJIS.encode jt [zk] ShiftJIS.backslashreplace
  = Ok match ShiftJIS.encode_char jt zk with
       | Some b => b
       | None => bytes_of (ShiftJIS.backslashreplace_errors zk)
       end.
Proof.
  cbn [ShiftJIS.encode].
  destruct (ShiftJIS.encode_char jt zk) as [b|].
  - cbn [bind]. rewrite append_empty_r. reflexivity.
  - rewrite encode_strict_ascii by apply backslashreplace_errors_ascii.
    cbn [bind]. rewrite append_empty_r. reflexivity.
Qed.

Lemma encode_one_strict (hk : Z) :
  ShiftJIS.encode jt [hk] ShiftJIS.strict
  = match ShiftJIS.encode_char jt hk with
    | Some b => Ok b
    | None => Raise UnicodeEncodeError
    end.
Proof.
  cbn [ShiftJIS.encode].
  destruct (ShiftJIS.encode_char jt hk) as [b|]; [| reflexivity ].
  cbn [bind]. rewrite append_empty_r. reflexivity.
Qed.

(** Every way the pair can come out, by the size of the two encodings. *)
Ltac pair_cases i hk zk :=
  unfold Builder.cur_of, Builder.hk_byte_of;
  rewrite encode_one_backslashreplace;
  destruct i as [|i]; cbn [Nat.eqb];
  [| rewrite encode_one_strict ];
  (destruct (ShiftJIS.encode_char jt zk) as [zs|] eqn:Ez;
   [ destruct (encode_char_size _ _ Ez) as [[zb ->]|(zb0 & zb1 & ->)]
   | destruct (backslashreplace_errors_head zk) as (ds & -> & _) ]);
  try (destruct (ShiftJIS.encode_char jt hk) as [hs|] eqn:Eh;
       [ destruct (encode_char_size _ _ Eh) as [[hb ->]|(hb0 & hb1 & ->)]
       |]);
  cbn [bind ord getitem String.get bytes_of].

Lemma cur_of_ok_iff (i : nat) (hk zk : Z) :
  (exists cur, Builder.cur_of jt i hk zk = Ok cur)
  <-> ((i = 0%nat
        \/ exists b, ShiftJIS.encode_char jt hk = Some (String b EmptyString))
       /\ forall b, ShiftJIS.encode_char jt zk <> Some (String b EmptyString)).
Proof.
  pair_cases i hk zk; split.
  all: try (intros [cur H]; discriminate H).
  all: try (intros _; eexists; reflexivity).
  all: try (intros [_ H]; exfalso; eapply H; reflexivity).
  all: try (intros _; split; [ left; reflexivity | intros b; discriminate ]).
  all: try (intros _; split;
            [ right; eexists; reflexivity | intros b; discriminate ]).
  all: try (intros [[H|[b H]] _]; discriminate H).
Qed.

Lemma cur_of_raise_iff (i : nat) (hk zk : Z) (e : exn) :
  Builder.cur_of jt i hk zk = Raise e
  <-> ((e = UnicodeEncodeError /\ i <> 0%nat
        /\ ShiftJIS.encode_char jt hk = None)
       \/ (e = TypeError /\ i <> 0%nat
           /\ exists b0 b1,
                ShiftJIS.encode_char jt hk
                = Some (String b0 (String b1 EmptyString)))
       \/ (e = IndexError
           /\ (i = 0%nat
               \/ exists b,
                    ShiftJIS.encode_char jt hk = Some (String b EmptyString))
           /\ exists b,
                ShiftJIS.encode_char jt zk = Some (String b EmptyString))).
Proof.
  pair_cases i hk zk; split.
  all: try (intros H; discriminate H).
  all: try (intros [= <-];
            first
              [ left; repeat split; solve [ discriminate | reflexivity ]
              | right; left; split; [ reflexivity |];
                split; [ discriminate | do 2 eexists; reflexivity ]
              | right; right; split; [ reflexivity |];
                split;
                [ first [ left; reflexivity | right; eexists; reflexivity ]
                | eexists; reflexivity ] ]).
  all: intros [(-> & Hi & H)
              |[(-> & Hi & (b0 & b1 & H))
               |(-> & Hh & (b' & H'))]];
    first [ reflexivity
          | discriminate
          | exfalso; apply Hi; reflexivity
          | destruct Hh as [Hh|[b Hh]]; discriminate ].
Qed.

End PairFacts.

(** X1: the pair at index [i] yields an entry exactly when the
    half-width side is the first one or encodes to a single byte, and
    the full-width character does not encode to a single byte. *)
Theorem X1_pair_succeeds_iff (jt : Z -> option Z) (i : nat) (hk zk : Z) :
  (exists cur, Builder.cur_of jt i hk zk = Ok cur)
  <-> ((i = 0%nat
        \/ exists b, ShiftJIS.encode_char jt hk = Some (String b EmptyString))
       /\ forall b, ShiftJIS.encode_char jt zk <> Some (String b EmptyString)).
Proof.
  apply cur_of_ok_iff.
Qed.

Lemma X1_pair_succeeds_iff_witness :
  ((4%nat = 0%nat
    \/ exists b,
         ShiftJIS.encode_char jisxcommon 0xff61
         = Some (String b EmptyString))
   /\ forall b,
        ShiftJIS.encode_char jisxcommon 0x3002
        <> Some (String b EmptyString))
  /\ exists cur, Builder.cur_of jisxcommon 4 0xff61 0x3002 = Ok cur.
Proof.
  assert (H : (4%nat = 0%nat
               \/ exists b,
                    ShiftJIS.encode_char jisxcommon 0xff61
                    = Some (String b EmptyString))
              /\ forall b,
                   ShiftJIS.encode_char jisxcommon 0x3002
                   <> Some (String b EmptyString)).
  { split.
    - right. exists "161"%char. reflexivity.
    - intros b. vm_compute. discriminate. }
  split; [ exact H |].
  exact (proj2 (X1_pair_succeeds_iff jisxcommon 4 0xff61 0x3002) H).
Defined.

(** X2: which exception the pair raises.  An unencodable half-width
    character after the first raises [UnicodeEncodeError]; one that
    encodes to two bytes raises [TypeError] at [ord]; otherwise a
    full-width character that encodes to one byte raises [IndexError]
    at [zk_bytes[1]]; and there is no other exception. *)
Theorem X2_pair_exception (jt : Z -> option Z) (i : nat) (hk zk : Z) (e : exn) :
  Builder.cur_of jt i hk zk = Raise e
  <-> ((e = UnicodeEncodeError /\ i <> 0%nat
        /\ ShiftJIS.encode_char jt hk = None)
       \/ (e = TypeError /\ i <> 0%nat
           /\ exists b0 b1,
                ShiftJIS.encode_char jt hk
                = Some (String b0 (String b1 EmptyString)))
       \/ (e = IndexError
           /\ (i = 0%nat
               \/ exists b,
                    ShiftJIS.encode_char jt hk = Some (String b EmptyString))
           /\ exists b,
                ShiftJIS.encode_char jt zk = Some (String b EmptyString))).
Proof.
  apply cur_of_raise_iff.
Qed.

Lemma X2_pair_exception_witness :
  (1%nat <> 0%nat
   /\ exists b0 b1,
        ShiftJIS.encode_char jisxcommon 0x3042
        = Some (String b0 (String b1 EmptyString)))
  /\ Builder.cur_of jisxcommon 1 0x3042 0x3042 = Raise TypeError.
Proof.
  assert (H : 1%nat <> 0%nat
              /\ exists b0 b1,
                   ShiftJIS.encode_char jisxcommon 0x3042
                   = Some (String b0 (String b1 EmptyString))).
  { split; [ discriminate |].
    exists "130"%char, "160"%char. reflexivity. }
  split; [ exact H |].
  apply (proj2 (X2_pair_exception jisxcommon 1 0x3042 0x3042 TypeError)).
  right. left. split; [ reflexivity | exact H ].
Defined.

(** ** The encoder calls of the loop body *)

(** X3: encoding with ['backslashreplace'] never raises, whatever the
    string and whatever the table, and where the strict encoding
    succeeds the two agree. *)
Theorem X3_backslashreplace_never_raises (jt : Z -> option Z) (u : list Z) :
  (exists s, ShiftJIS.encode jt u ShiftJIS.backslashreplace = Ok s)
  /\ forall s, ShiftJIS.encode jt u ShiftJIS.strict = Ok s ->
               ShiftJIS.encode jt u ShiftJIS.backslashreplace = Ok s.
Proof.
  induction u as [|c u [[r IHr] IHs]].
  - split; [ eexists; reflexivity | intros s H; exact H ].
  - cbn [ShiftJIS.encode].
    destruct (ShiftJIS.encode_char jt c) as [b|].
    + rewrite IHr. split; [ eexists; reflexivity |].
      intros s.
      destruct (ShiftJIS.encode jt u ShiftJIS.strict) as [r'|];
        [| discriminate ].
      rewrite (IHs r' eq_refl) in IHr. injection IHr as ->.
      intros H; exact H.
    + rewrite encode_strict_ascii by apply backslashreplace_errors_ascii.
      rewrite IHr. split; [ eexists; reflexivity | discriminate ].
Qed.

Lemma X3_backslashreplace_never_raises_witness :
  ShiftJIS.encode jisxcommon [0x3042; 0x21] ShiftJIS.strict
  = Ok (String "130" (String "160" "!"))
  /\ ShiftJIS.encode jisxcommon [0x3042; 0x21] ShiftJIS.backslashreplace
     = Ok (String "130" (String "160" "!")).
Proof.
  split; [ reflexivity |].
  apply (proj2 (X3_backslashreplace_never_raises jisxcommon [0x3042; 0x21])).
  reflexivity.
Defined.

(** X4: after the first position a half-width katakana code point,
    U+FF61 to U+FF9F, gives the index byte "code point - 0xFEC0", and an
    ASCII code point gives itself, without the table being looked at. *)
Theorem X4_half_width_index_byte (jt : Z -> option Z) (i : nat) (hk : Z) :
  i <> 0%nat ->
  (0xff61 <= hk <= 0xff9f ->
   bind (Builder.hk_byte_of jt i hk) ord = Ok (hk - 0xfec0))
  /\ (0 <= hk < 0x80 ->
      bind (Builder.hk_byte_of jt i hk) ord = Ok hk).
Proof.
  intros Hi. unfold Builder.hk_byte_of.
  destruct i as [|i]; [ congruence |]. cbn [Nat.eqb].
  rewrite encode_one_strict. split; intros Hhk.
  - assert (E : ShiftJIS.encode_char jt hk
                = Some (String (byte_of (hk - 0xfec0)) EmptyString)).
    { unfold ShiftJIS.encode_char, ShiftJIS.single_code.
      destruct (hk <? 0x80) eqn:E1; [ apply Z.ltb_lt in E1; lia |].
      destruct (hk =? 0xa5) eqn:E2; [ apply Z.eqb_eq in E2; lia |].
      destruct (hk =? 0x203e) eqn:E3; [ apply Z.eqb_eq in E3; lia |].
      replace ((0xff61 <=? hk) && (hk <=? 0xff9f)) with true
        by (symmetry; apply andb_true_iff; split; apply Z.leb_le; lia).
      replace (hk - 0xfec0 <? 0x80) with false
        by (symmetry; apply Z.ltb_ge; lia).
      replace ((0xa1 <=? hk - 0xfec0) && (hk - 0xfec0 <=? 0xdf)) with true
        by (symmetry; apply andb_true_iff; split; apply Z.leb_le; lia).
      reflexivity. }
    rewrite E. cbn [bind]. apply ord_byte_of. lia.
  - rewrite encode_char_ascii by exact Hhk.
    cbn [bind]. apply ord_byte_of. lia.
Qed.

Lemma X4_half_width_index_byte_witness :
  (1%nat <> 0%nat /\ 0xff61 <= 0xff9d <= 0xff9f
   /\ bind (Builder.hk_byte_of jisxcommon 1 0xff9d) ord = Ok 0xdd)
  /\ (0 <= 0x21 < 0x80
      /\ bind (Builder.hk_byte_of jisxcommon 1 0x21) ord = Ok 0x21).
Proof.
  assert (H1 : 1%nat <> 0%nat) by discriminate.
  split.
  - split; [ exact H1 |]. split; [ lia |].
    apply (proj1 (X4_half_width_index_byte jisxcommon 1 0xff9d H1)). lia.
  - split; [ lia |].
    apply (proj2 (X4_half_width_index_byte jisxcommon 1 0x21 H1)). lia.
Defined.

(** ** The whole loop, over any tables *)

Section BuilderFacts.

Variable jt : Z -> option Z.
Variable z : list Z.

(** A loop that raises stopped at the first character whose body
    raises, with the entries of the characters before it appended. *)
Lemma gen_loop_raise (hks : list Z) :
  forall (i : nat) (M : list entry) (e : exn),
    snd (Builder.gen_loop jt z i hks M) = Some e ->
    exists (k : nat) (hk : Z) (es : list entry),
      nth_error hks k = Some hk
      /\ Builder.gen_entry jt z (i + k) hk = Raise e
      /\ fst (Builder.gen_loop jt z i hks M) = (M ++ es)%list
      /\ List.length es = k
      /\ forall (j : nat) (hj : Z),
           (j < k)%nat -> nth_error hks j = Some hj ->
           exists ej, Builder.gen_entry jt z (i + j) hj = Ok ej
                      /\ nth_error es j = Some ej.
Proof.
  induction hks as [|hk0 hks IH]; intros i M e; [ discriminate |].
  cbn [Builder.gen_loop].
  destruct (Builder.gen_entry jt z i hk0) as [cur|e0] eqn:E.
  - intros H. destruct (IH _ _ _ H) as (k & hk & es & Hk & He & Hf & Hl & Hj).
    exists (S k), hk, (cur :: es). repeat split.
    + exact Hk.
    + rewrite <- Nat.add_succ_comm. exact He.
    + rewrite Hf, <- app_assoc. reflexivity.
    + simpl. congruence.
    + intros [|j] hj Hlt Hnth.
      * injection Hnth as <-. exists cur.
        rewrite Nat.add_0_r. split; [ exact E | reflexivity ].
      * destruct (Hj j hj (proj2 (Nat.succ_lt_mono j k) Hlt) Hnth)
          as (ej & Hej & Hn).
        exists ej. rewrite <- Nat.add_succ_comm. split; assumption.
  - intros [= <-]. exists 0%nat, hk0, []. repeat split.
    + rewrite Nat.add_0_r. exact E.
    + simpl. rewrite app_nil_r. reflexivity.
    + intros j hj Hlt. inversion Hlt.
Qed.

Lemma gen_loop_all_ok (hks : list Z) :
  forall (i : nat) (M : list entry),
    (forall (k : nat) (hk : Z),
        nth_error hks k = Some hk ->
        exists e, Builder.gen_entry jt z (i + k) hk = Ok e) ->
    snd (Builder.gen_loop jt z i hks M) = None.
Proof.
  induction hks as [|hk0 hks IH]; intros i M Hall; [ reflexivity |].
  cbn [Builder.gen_loop].
  destruct (Hall 0%nat hk0 eq_refl) as [cur Hcur].
  rewrite Nat.add_0_r in Hcur. rewrite Hcur.
  apply IH. intros k hk Hk.
  rewrite Nat.add_succ_comm. apply (Hall (S k) hk Hk).
Qed.

Lemma gen_entry_ok_iff (i : nat) (hk : Z) :
  (exists e, Builder.gen_entry jt z i hk = Ok e)
  <-> exists zk, nth_error z i = Some zk
                 /\ exists e, Builder.cur_of jt i hk zk = Ok e.
Proof.
  unfold Builder.gen_entry, getitem_u, bind.
  destruct (nth_error z i) as [zk|]; split.
  - intros H. exists zk. split; [ reflexivity | exact H ].
  - intros (zk' & [= <-] & H). exact H.
  - intros [e H]. discriminate H.
  - intros (zk' & H & _). discriminate H.
Qed.

End BuilderFacts.

(** ** Unequal lengths: what the builder does *)



(** ** What a call leaves in the list *)

(** X5: a call never touches what [MAPPING] already holds, also when it
    raises: the old contents stay in front, and both the entries
    appended and the exception are those of a call on the empty list. *)
Theorem X5_prior_entries_kept (jt : Z -> option Z) (h z : list Z)
  (M : list entry) :
  Builder.gen_mapping jt h z M
  = ((M ++ fst (Builder.gen_mapping jt h z []))%list,
     snd (Builder.gen_mapping jt h z []))
  /\ (List.length (fst (Builder.gen_mapping jt h z []))
      <= List.length h)%nat.
Proof.
  split; [ apply gen_loop_app |].
  unfold Builder.gen_mapping.
  destruct (snd (Builder.gen_loop jt z 0 h [])) as [e|] eqn:E.
  - destruct (gen_loop_raise jt z h 0 [] e E)
      as (k & hk & es & Hk & _ & Hf & Hl & _).
    rewrite Hf. simpl. rewrite Hl.
    apply Nat.lt_le_incl, nth_error_Some. rewrite Hk. discriminate.
  - destruct (gen_loop_ok jt z h 0 [] E) as [Hlen _].
    rewrite Hlen. simpl. lia.
Qed.

(** X6: a call that raises stopped at the first pair whose body raises:
    the exception is that pair's, every pair before it yielded its
    entry, and exactly those entries, in order, were appended before
    the exception left the partial table behind. *)
Theorem X6_stops_at_first_failure (jt : Z -> option Z) (h z : list Z)
  (M : list entry) (e : exn) :
  snd (Builder.gen_mapping jt h z M) = Some e ->
  exists (k : nat) (hk : Z) (es : list entry),
    nth_error h k = Some hk
    /\ Builder.gen_entry jt z k hk = Raise e
    /\ fst (Builder.gen_mapping jt h z M) = (M ++ es)%list
    /\ List.length es = k
    /\ forall (j : nat) (hj : Z),
         (j < k)%nat -> nth_error h j = Some hj ->
         exists ej, Builder.gen_entry jt z j hj = Ok ej
                    /\ nth_error es j = Some ej.
Proof.
  intros H. exact (gen_loop_raise jt z h 0 M e H).
Qed.

Lemma X6_stops_at_first_failure_witness :
  snd (Builder.gen_mapping jisxcommon [0x00a0; 0xff61; 0x3042; 0xff62]
         [0x3000; 0x3002; 0x3042; 0x300c] [])
  = Some TypeError
  /\ exists (k : nat) (hk : Z) (es : list entry),
       nth_error [0x00a0; 0xff61; 0x3042; 0xff62] k = Some hk
       /\ Builder.gen_entry jisxcommon [0x3000; 0x3002; 0x3042; 0x300c] k hk
          = Raise TypeError
       /\ fst (Builder.gen_mapping jisxcommon
                 [0x00a0; 0xff61; 0x3042; 0xff62]
                 [0x3000; 0x3002; 0x3042; 0x300c] [])
          = ([] ++ es)%list
       /\ List.length es = k
       /\ forall (j : nat) (hj : Z),
            (j < k)%nat ->
            nth_error [0x00a0; 0xff61; 0x3042; 0xff62] j = Some hj ->
            exists ej,
              Builder.gen_entry jisxcommon
                [0x3000; 0x3002; 0x3042; 0x300c] j hj = Ok ej
              /\ nth_error es j = Some ej.
Proof.
  split; [ reflexivity |].
  exact (X6_stops_at_first_failure jisxcommon
           [0x00a0; 0xff61; 0x3042; 0xff62]
           [0x3000; 0x3002; 0x3042; 0x300c] [] TypeError eq_refl).
Defined.

(** X7: the builder ends without an exception exactly when the
    full-width string is at least as long as the half-width one and
    every pair is good: the half-width character, unless it is the
    first, encodes to one byte, and the full-width character does not
    encode to one byte. *)
Theorem X7_builder_succeeds_iff (jt : Z -> option Z) (h z : list Z)
  (M : list entry) :
  snd (Builder.gen_mapping jt h z M) = None
  <-> ((List.length h <= List.length z)%nat
       /\ forall (i : nat) (hk zk : Z),
            nth_error h i = Some hk -> nth_error z i = Some zk ->
            (i = 0%nat
             \/ exists b,
                  ShiftJIS.encode_char jt hk = Some (String b EmptyString))
            /\ forall b,
                 ShiftJIS.encode_char jt zk <> Some (String b EmptyString)).
Proof.
  unfold Builder.gen_mapping. split.
  - intros Hnone. destruct (gen_loop_ok jt z h 0 M Hnone) as [_ Hnth].
    split.
    + destruct (Nat.le_gt_cases (List.length h) (List.length z))
        as [Hle|Hgt]; [ exact Hle |].
      destruct (gen_loop_short jt z h 0 M (Nat.le_0_l _) Hgt) as [e He].
      congruence.
    + intros i hk zk Hh Hz.
      destruct (Hnth i hk Hh) as (e & He & _). cbn in He.
      apply cur_of_ok_iff.
      destruct (proj1 (gen_entry_ok_iff jt z i hk) (ex_intro _ e He))
        as (zk' & Hz' & Hcur).
      rewrite Hz in Hz'. injection Hz' as <-. exact Hcur.
  - intros [Hlen Hall]. apply gen_loop_all_ok.
    intros k hk Hk. cbn.
    apply gen_entry_ok_iff.
    destruct (nth_error z k) as [zk|] eqn:Ez.
    + exists zk. split; [ reflexivity |].
      apply cur_of_ok_iff. apply (Hall k hk zk Hk Ez).
    + apply nth_error_None in Ez.
      assert (k < List.length h)%nat
        by (apply nth_error_Some; rewrite Hk; discriminate).
      lia.
Qed.

Lemma X7_builder_succeeds_iff_witness :
  snd (Builder.gen_mapping jisxcommon HANKAKU ZENKAKU []) = None
  /\ (List.length HANKAKU <= List.length ZENKAKU)%nat
  /\ forall (i : nat) (hk zk : Z),
       nth_error HANKAKU i = Some hk -> nth_error ZENKAKU i = Some zk ->
       (i = 0%nat
        \/ exists b,
             ShiftJIS.encode_char jisxcommon hk
             = Some (String b EmptyString))
       /\ forall b,
            ShiftJIS.encode_char jisxcommon zk
            <> Some (String b EmptyString).
Proof.
  split; [ reflexivity |].
  exact (proj1 (X7_builder_succeeds_iff jisxcommon HANKAKU ZENKAKU [])
           eq_refl).
Defined.

(** X8: when the full-width string is the shorter one and all its pairs
    are good, the exception is [IndexError], raised by [ZENKAKU[i]] at
    the index where the string ends, and the entries of all the pairs
    before it have been appended to [MAPPING] by then. *)
Theorem X8_short_zenkaku_index_error (jt : Z -> option Z) (h z : list Z)
  (M : list entry) :
  (List.length z < List.length h)%nat ->
  (forall (i : nat) (hk zk : Z),
      nth_error h i = Some hk -> nth_error z i = Some zk ->
      exists cur, Builder.cur_of jt i hk zk = Ok cur) ->
  exists es,
    Builder.gen_mapping jt h z M = ((M ++ es)%list, Some IndexError)
    /\ List.length es = List.length z.
Proof.
  intros Hlen Hall. unfold Builder.gen_mapping.
  destruct (gen_loop_short jt z h 0 M (Nat.le_0_l _) Hlen) as [e He].
  destruct (gen_loop_raise jt z h 0 M e He)
    as (k & hk & es & Hk & Hraise & Hf & Hl & Hbefore).
  cbn in Hraise.
  assert (Hz : nth_error z k = None).
  { destruct (nth_error z k) as [zk|] eqn:Ez; [| reflexivity ].
    destruct (proj2 (gen_entry_ok_iff jt z k hk)) as [cur Hcur].
    - exists zk. split; [ exact Ez | apply (Hall k hk zk Hk Ez) ].
    - congruence. }
  assert (He' : e = IndexError).
  { unfold Builder.gen_entry, getitem_u in Hraise. rewrite Hz in Hraise.
    cbn in Hraise. congruence. }
  assert (Hk' : k = List.length z).
  { apply nth_error_None in Hz.
    destruct (Nat.eq_dec k (List.length z)) as [Heq|Hne]; [ exact Heq |].
    assert (Hlt : (List.length z < k)%nat) by lia.
    assert (Hkh : (k < List.length h)%nat)
      by (apply nth_error_Some; rewrite Hk; discriminate).
    destruct (nth_error h (List.length z)) as [hj|] eqn:Ej.
    - destruct (Hbefore _ hj Hlt Ej) as (ej & Hej & _). cbn in Hej.
      unfold Builder.gen_entry, getitem_u in Hej.
      rewrite (proj2 (nth_error_None z (List.length z)) (le_n _)) in Hej.
      discriminate Hej.
    - apply nth_error_None in Ej. lia. }
  exists es. split; [| congruence ].
  rewrite (surjective_pairing (Builder.gen_loop jt z 0 h M)).
  rewrite Hf, He, He'. reflexivity.
Qed.

Lemma X8_short_zenkaku_index_error_witness :
  Nat.lt (List.length [0x3000; 0x3002]) (List.length HANKAKU)
  /\ exists es,
       Builder.gen_mapping jisxcommon HANKAKU [0x3000; 0x3002] []
       = (([] ++ es)%list, Some IndexError)
       /\ List.length es = List.length [0x3000; 0x3002].
Proof.
  assert (Hlen : Nat.lt (List.length [0x3000; 0x3002]) (List.length HANKAKU))
    by (vm_compute; lia).
  split; [ exact Hlen |].
  apply (X8_short_zenkaku_index_error jisxcommon HANKAKU [0x3000; 0x3002] []
           Hlen).
  intros [|[|i]] hk zk Hh Hz.
  - injection Hh as <-. injection Hz as <-. eexists. reflexivity.
  - injection Hh as <-. injection Hz as <-. eexists. reflexivity.
  - destruct i; discriminate Hz.
Defined.

(** X9: a good pair yields the entry one expects: the index byte is
    0xa0 at the first position and the single byte of the half-width
    character elsewhere, and the two target bytes are the two bytes of
    the full-width character in SHIFT_JIS. *)
Theorem X9_entry_of_good_pair (jt : Z -> option Z) (i : nat) (hk zk : Z)
  (hb b0 b1 : ascii) :
  (i <> 0%nat -> ShiftJIS.encode_char jt hk = Some (String hb EmptyString)) ->
  ShiftJIS.encode_char jt zk = Some (String b0 (String b1 EmptyString)) ->
  Builder.cur_of jt i hk zk
  = Ok (if Nat.eqb i 0 then 0xa0 else Z.of_N (N_of_ascii hb),
        Z.of_N (N_of_ascii b0), Z.of_N (N_of_ascii b1)).
Proof.
  intros Hhk Hzk. unfold Builder.cur_of, Builder.hk_byte_of.
  rewrite encode_one_backslashreplace, Hzk.
  destruct i as [|i]; cbn [Nat.eqb].
  - reflexivity.
  - rewrite encode_one_strict, Hhk by discriminate. reflexivity.
Qed.

Lemma X9_entry_of_good_pair_witness :
  (4%nat <> 0%nat ->
   ShiftJIS.encode_char jisxcommon 0xff61 = Some (String "161" EmptyString))
  /\ ShiftJIS.encode_char jisxcommon 0x3002
     = Some (String "129" (String "B" EmptyString))
  /\ Builder.cur_of jisxcommon 4 0xff61 0x3002 = Ok (0xa1, 0x81, 0x42).
Proof.
  split; [ intros _; reflexivity |].
  split; [ reflexivity |].
  exact (X9_entry_of_good_pair jisxcommon 4 0xff61 0x3002
           "161" "129" "B" (fun _ => eq_refl) eq_refl).
Defined.

(** ** The printer on what the builder leaves *)

Lemma two_digits_inj (n m : Z) :
  0 <= n <= 255 -> 0 <= m <= 255 -> two_digits n = two_digits m -> n = m.
Proof.
  intros Hn Hm H.
  assert (All : forallb
                  (fun a =>
                     forallb
                       (fun b =>
                          implb (String.eqb (two_digits (Z.of_nat a))
                                            (two_digits (Z.of_nat b)))
                                (Nat.eqb a b))
                       (seq 0 256))
                  (seq 0 256) = true) by (vm_compute; reflexivity).
  rewrite forallb_forall in All.
  specialize (All (Z.to_nat n)). rewrite forallb_forall in All.
  specialize (All ltac:(apply in_seq; lia) (Z.to_nat m)
                  ltac:(apply in_seq; lia)).
  rewrite !Z2Nat.id in All by lia.
  rewrite H, String.eqb_refl in All. cbn [implb] in All.
  apply Nat.eqb_eq in All. lia.
Qed.

Lemma entry_line_bytes (e : entry) :
  entry_in_bytes e ->
  entry_line e
  = (let '(i, b0, b1) := e in
     "    { 0x" ++ two_digits i ++ ", { 0x" ++ two_digits b0
     ++ ", 0x" ++ two_digits b1 ++ " } },")%string.
Proof.
  destruct e as [[i b0] b1]. intros (Hi & H0 & H1).
  unfold entry_line. rewrite !fmt_02x_byte by assumption. reflexivity.
Qed.

Lemma entry_line_inj (e e' : entry) :
  entry_in_bytes e -> entry_in_bytes e' ->
  entry_line e = entry_line e' -> e = e'.
Proof.
  intros He He'. rewrite !entry_line_bytes by assumption.
  destruct e as [[i b0] b1], e' as [[i' b0'] b1'].
  destruct He as (Hi & H0 & H1), He' as (Hi' & H0' & H1').
  unfold two_digits. cbn [append]. intros H.
  injection H as Ea Eb Ec Ed Ee Ef.
  rewrite (two_digits_inj i i' Hi Hi') by (unfold two_digits; congruence).
  rewrite (two_digits_inj b0 b0' H0 H0') by (unfold two_digits; congruence).
  rewrite (two_digits_inj b1 b1' H1 H1') by (unfold two_digits; congruence).
  reflexivity.
Qed.

(** X10: whatever the tables, and also when the builder raised half
    way, every line the printer emits between header and footer for the
    list the builder left is 29 characters long and has the fixed form,
    with three byte values of two lowercase hexadecimal digits each. *)
Theorem X10_printed_entry_lines (jt : Z -> option Z) (h z : list Z)
  (k : nat) (line : string) :
  (0 < k <= List.length (fst (Builder.gen_mapping jt h z [])))%nat ->
  nth_error (output (fst (Builder.gen_mapping jt h z []))) k = Some line ->
  String.length line = 29%nat
  /\ exists i b0 b1 : Z,
       nth_error (fst (Builder.gen_mapping jt h z [])) (k - 1)
       = Some (i, b0, b1)
       /\ 0 <= i <= 255 /\ 0 <= b0 <= 255 /\ 0 <= b1 <= 255
       /\ line = ("    { 0x" ++ two_digits i ++ ", { 0x" ++ two_digits b0
                  ++ ", 0x" ++ two_digits b1 ++ " } },")%string.
Proof.
  set (M := fst (Builder.gen_mapping jt h z [])).
  assert (HM : Forall entry_in_bytes M)
    by (apply gen_loop_in_bytes; constructor).
  intros [Hk0 Hk] Hline.
  destruct k as [|k]; [ lia |].
  unfold output in Hline. cbn [app nth_error] in Hline.
  rewrite nth_error_app1 in Hline by (rewrite length_map; lia).
  rewrite nth_error_map in Hline.
  destruct (nth_error M k) as [e|] eqn:Ee; [| discriminate ].
  cbn in Hline. injection Hline as <-.
  assert (He : entry_in_bytes e).
  { rewrite Forall_forall in HM. apply HM. eapply nth_error_In, Ee. }
  rewrite entry_line_bytes by exact He.
  destruct e as [[i b0] b1]. destruct He as (Hi & H0 & H1).
  split; [ reflexivity |].
  exists i, b0, b1.
  replace (S k - 1)%nat with k by lia.
  repeat split; solve [ assumption | apply Hi | apply H0 | apply H1 ].
Qed.

Lemma X10_printed_entry_lines_witness :
  (0 < 5 <= List.length (fst (Builder.gen_mapping jisxcommon HANKAKU
                                ZENKAKU [])))%nat
  /\ nth_error (output (fst (Builder.gen_mapping jisxcommon HANKAKU
                               ZENKAKU []))) 5
     = Some "    { 0xa1, { 0x81, 0x42 } },"
  /\ String.length "    { 0xa1, { 0x81, 0x42 } }," = 29%nat.
Proof.
  assert (Hk : (0 < 5 <= List.length
                          (fst (Builder.gen_mapping jisxcommon HANKAKU
                                  ZENKAKU [])))%nat)
    by (vm_compute; lia).
  split; [ exact Hk |]. split; [ reflexivity |].
  exact (proj1 (X10_printed_entry_lines jisxcommon HANKAKU ZENKAKU 5
                  "    { 0xa1, { 0x81, 0x42 } }," Hk eq_refl)).
Defined.

(** X11: the printed text determines the table: two lists of entries
    with byte values that print the same lines are the same list. *)
Theorem X11_output_injective (M M' : list entry) :
  Forall entry_in_bytes M -> Forall entry_in_bytes M' ->
  output M = output M' -> M = M'.
Proof.
  intros HM HM' H. unfold output in H.
  cbn [app] in H. injection H as H.
  apply app_inv_tail in H.
  revert M' HM' H.
  induction HM as [|e M He _ IH]; intros [|e' M'] HM' H;
    try discriminate; [ reflexivity |].
  cbn [map] in H. injection H as Hl Hrest.
  inversion HM' as [|? ? He' HM'']; subst.
  f_equal; [ apply entry_line_inj; assumption | apply IH; assumption ].
Qed.

Lemma X11_output_injective_witness :
  Forall entry_in_bytes [(0xa1, 0x81, 0x42)]
  /\ output [(0xa1, 0x81, 0x42)] = output [(0xa1, 0x81, 0x42)]
  /\ [(0xa1, 0x81, 0x42)] = [(0xa1, 0x81, 0x42)].
Proof.
  assert (HM : Forall entry_in_bytes [(0xa1, 0x81, 0x42)]).
  { constructor; [| constructor ].
    unfold entry_in_bytes, is_byte. lia. }
  split; [ exact HM |]. split; [ reflexivity |].
  exact (X11_output_injective _ _ HM HM eq_refl).
Defined.
